(** * Empty-tensor allocation (aten/src/ATen/EmptyTensor.cpp)

    A shallow embedding of [check_size_nonnegative], [empty_generic],
    [GetCPUAllocatorMaybePinned] and the three [empty_cpu] overloads.

    - 64-bit integers are [Z] with the conversions written out.
    - A C++ exception is an [Err] result; the effects of a call (buffers
      acquired, objects built, TensorImpl methods invoked) are recorded in a
      trace that is threaded through every call.
    - What the file only reaches through headers (the allocators, the CUDA
      hooks, TypeMeta, the layout engine of TensorImpl, the default dtype, the
      build mode) is a field of the class [Externals], or is modelled from the
      specification where a definition says so.
    - An exception leaves a function with the trace as it is at the raise;
      what the destructors do while the stack unwinds is not modelled. *)

From Stdlib Require Import ZArith List Bool Lia.
Import ListNotations.
Local Open Scope Z_scope.

(** ** Machine integers *)

Definition int64_min : Z := - 2 ^ 63.
Definition int64_max : Z := 2 ^ 63 - 1.

(** [int64_t] range test. *)
Definition in_int64 (z : Z) : bool := (int64_min <=? z) && (z <=? int64_max).

(** Conversion to [size_t]: the value modulo 2^64. *)
Definition to_size_t (z : Z) : Z := z mod 2 ^ 64.

(** Conversion to [int64_t]: two's complement. *)
Definition to_int64 (z : Z) : Z := (z + 2 ^ 63) mod 2 ^ 64 - 2 ^ 63.

(** ** Errors and results *)

Definition IntArrayRef := list Z.

Inductive MemoryFormat : Type :=
| Contiguous
| Preserve
| ChannelsLast
| ChannelsLast3d.

Definition MemoryFormat_eqb (a b : MemoryFormat) : bool :=
  match a, b with
  | Contiguous, Contiguous
  | Preserve, Preserve
  | ChannelsLast, ChannelsLast
  | ChannelsLast3d, ChannelsLast3d => true
  | _, _ => false
  end.

(** The failures of the allocation path.  [ValidationError x size] is the
    TORCH_CHECK of [check_size_nonnegative]; its message is built from the
    offending dimension [x] and the whole [size].  [RestrideError mf] is the
    failure of [empty_tensor_restride] for the format [mf]. *)
Inductive Error : Type :=
| ValidationError (x : Z) (size : IntArrayRef)
| OverflowError
| UnsupportedPolicyError
| AllocationError
| ConversionError
| InternalAssertError
| RestrideError (mf : MemoryFormat).

Inductive Result (A : Type) : Type :=
| Ok (a : A)
| Err (e : Error).
Arguments Ok {A} a.
Arguments Err {A} e.

(** ** Enumerations and handles of c10 that the file names *)

Inductive DeviceType : Type :=
| DeviceType_CPU
| DeviceType_CUDA
| DeviceType_Other (tag : nat).

Definition DeviceType_is_CPU (d : DeviceType) : bool :=
  match d with DeviceType_CPU => true | _ => false end.

Record Device : Type := mkDevice { device_type : DeviceType; device_index : Z }.

Inductive Layout : Type :=
| Strided
| Sparse
| Layout_Other (tag : nat).

Definition Layout_is_Strided (l : Layout) : bool :=
  match l with Strided => true | _ => false end.

(** Enumeration tags ([ScalarType], [DispatchKey]), the index of a
    [caffe2::TypeMeta], and the addresses behind [c10::Allocator*] and
    [at::DataPtr] are numbers. *)
Definition ScalarType := nat.
Definition TypeMeta := nat.
Definition DispatchKey := nat.
Definition Allocator := nat.
Definition DataPtr := nat.

(** ** Objects *)

Record StorageImpl : Type := mkStorageImpl {
  size_bytes : Z;
  data_ptr : DataPtr;
  allocator : Allocator;
  resizable : bool
}.

Record TensorImpl : Type := mkTensorImpl {
  storage : StorageImpl;
  key_set : DispatchKey;
  dtype : TypeMeta;
  sizes : IntArrayRef;
  strides : list Z
}.

Definition TensorBase := TensorImpl.

Record TensorOptions : Type := mkTensorOptions {
  dtype_opt : option TypeMeta;
  layout_opt : option Layout;
  device_opt : option Device;
  pinned_memory_opt : option bool;
  memory_format_opt : option MemoryFormat
}.

(** ** Effects: the trace of what a call did, newest event first *)

Inductive Event : Type :=
| EvAllocate (a : Allocator) (nbytes : Z) (p : DataPtr)
| EvStorageImpl (s : StorageImpl)
| EvTensorImpl (t : TensorImpl)
| EvSetSizesContiguous (size : IntArrayRef)
| EvRestride (mf : MemoryFormat).

Definition World := list Event.

Definition is_allocate (ev : Event) : bool :=
  match ev with EvAllocate _ _ _ => true | _ => false end.
Definition is_storage (ev : Event) : bool :=
  match ev with EvStorageImpl _ => true | _ => false end.
Definition is_tensor (ev : Event) : bool :=
  match ev with EvTensorImpl _ => true | _ => false end.
Definition is_set_sizes (ev : Event) : bool :=
  match ev with EvSetSizesContiguous _ => true | _ => false end.
Definition is_restride (ev : Event) : bool :=
  match ev with EvRestride _ => true | _ => false end.

(** How many events of a kind a trace holds. *)
Definition count (p : Event -> bool) (w : World) : nat := length (filter p w).

(** The monad of the calls: a result or an exception, and the trace. *)
Definition M (A : Type) : Type := World -> Result A * World.

Definition ret {A} (a : A) : M A := fun w => (Ok a, w).

Definition raise {A} (e : Error) : M A := fun w => (Err e, w).

Definition bind {A B} (m : M A) (k : A -> M B) : M B :=
  fun w =>
    match m w with
    | (Ok a, w') => k a w'
    | (Err e, w') => (Err e, w')
    end.

Definition lift {A} (r : Result A) : M A := fun w => (r, w).

Definition emit (ev : Event) : M unit := fun w => (Ok tt, ev :: w).

Notation "x <- m ;; k" := (bind m (fun x => k))
  (at level 61, m at next level, right associativity).
Notation "m ;;; k" := (bind m (fun _ => k))
  (at level 61, right associativity).

(** ** What the file reaches through headers *)

Class Externals : Type := {
  (** caffe2::TypeMeta: the tag of an element type and its byte width
      ([itemsize] is a [size_t]); a TypeMeta that is no scalar type makes the
      conversion back raise ([None]). *)
  scalarTypeToTypeMeta : ScalarType -> TypeMeta;
  typeMetaToScalarType : TypeMeta -> option ScalarType;
  itemsize : TypeMeta -> Z;
  (** The process-wide CPU allocator, and the pinned-memory allocator of the
      CUDA hooks when there is one. *)
  GetCPUAllocator : Allocator;
  pinned_memory_allocator : option Allocator;
  (** [c10::Allocator::allocate] is virtual: which pointer it returns for
      the [size_t] it is given, and whether it raises ([None]), is the
      allocator's business. *)
  allocate : Allocator -> World -> Z -> option DataPtr;
  DispatchKey_CPU : DispatchKey;
  get_default_dtype_as_scalartype : ScalarType;
  (** Whether TORCH_INTERNAL_ASSERT_DEBUG_ONLY is compiled out. *)
  NDEBUG : bool;
  (** The layout engine of TensorImpl for the formats other than Contiguous:
      the strides of a shape in a format, or [None] when it has none for
      that format and shape (the restride then raises). *)
  strides_for : MemoryFormat -> IntArrayRef -> option (list Z)
}.

(** ** Shape checks and sizes *)

(** The loop of [check_size_nonnegative]: [rest] is what is left to visit,
    [size] the whole shape (cited by the message). *)
Fixpoint check_size_nonnegative_from (rest size : IntArrayRef) : Result unit :=
  match rest with
  | [] => Ok tt
  | x :: rest' =>
      if 0 <=? x then check_size_nonnegative_from rest' size
      else Err (ValidationError x size)
  end.

(** Lines 16-20. *)
Definition check_size_nonnegative (size : IntArrayRef) : M unit :=
  lift (check_size_nonnegative_from size size).

(** Modelled from the spec: the helper [c10::multiply_integers] (declared in
    c10/util/accumulate.h, not among the sources).  The spec says: the product
    of all dimensions using overflow-checked multiplication; the product of an
    empty shape is 1; an overflow fails with an OverflowError. *)
Definition checked_mul (a b : Z) : Result Z :=
  if in_int64 (a * b) then Ok (a * b) else Err OverflowError.

Fixpoint multiply_integers_from (acc : Z) (l : IntArrayRef) : Result Z :=
  match l with
  | [] => Ok acc
  | x :: l' =>
      match checked_mul acc x with
      | Ok p => multiply_integers_from p l'
      | Err e => Err e
      end
  end.

Definition multiply_integers (size : IntArrayRef) : Result Z :=
  multiply_integers_from 1 size.

(** The mathematical product of a shape. *)
Definition product (size : IntArrayRef) : Z := fold_right Z.mul 1 size.

(** Modelled from the spec: the row-major strides that
    [TensorImpl::set_sizes_contiguous] installs (TensorImpl is not among the
    sources).  The spec says: the last dimension has stride 1; each preceding
    dimension's stride is the product of all dimension sizes to its right,
    with the convention that a dimension of size 0 or 1 does not change the
    cumulative product.  A stride is an [int64_t]: each step of the
    cumulative product is converted to [int64_t]. *)
Definition stride_factor (d : Z) : Z :=
  if (d =? 0) || (d =? 1) then 1 else d.

Fixpoint contiguous_strides (shape : IntArrayRef) : list Z :=
  match shape with
  | [] => []
  | _ :: rest =>
      match rest with
      | [] => [1]
      | d :: _ =>
          let below := contiguous_strides rest in
          to_int64 (hd 1 below * stride_factor d) :: below
      end
  end.

(** Modelled from the spec: the state of a default-constructed TensorImpl,
    the literal one-element shape [0] (line 42 of the source says so too)
    with its stride; the stride of a last dimension is 1. *)
Definition default_sizes : IntArrayRef := [0].
Definition default_strides : list Z := [1].

(** ** Collaborators *)

Definition Allocator_allocate `{Externals} (a : Allocator) (n : Z)
    : M DataPtr :=
  fun w =>
    match allocate a w n with
    | Some p => (Ok p, EvAllocate a n p :: w)
    | None => (Err AllocationError, w)
    end.

(** Modelled from the spec: the constructor of StorageImpl (not among the
    sources).  The spec says: the storage is created from the byte size and
    the allocator, and its byte length is the value passed at construction.
    The constructor takes the byte size as a [size_t]. *)
Definition make_StorageImpl (nbytes : Z) (p : DataPtr) (a : Allocator)
    (rs : bool) : M StorageImpl :=
  let s := mkStorageImpl nbytes p a rs in
  emit (EvStorageImpl s) ;;; ret s.

Definition make_tensor_base (s : StorageImpl) (k : DispatchKey)
    (ty : TypeMeta) : M TensorBase :=
  let t := mkTensorImpl s k ty default_sizes default_strides in
  emit (EvTensorImpl t) ;;; ret t.

(** Modelled from the spec: [TensorImpl::set_sizes_contiguous] (TensorImpl
    is not among the sources).  The spec says: the sizes are set from the
    shape and the strides are the row-major ones. *)
Definition set_sizes_contiguous (t : TensorImpl) (size : IntArrayRef)
    : M TensorImpl :=
  emit (EvSetSizesContiguous size) ;;;
  ret (mkTensorImpl (storage t) (key_set t) (dtype t)
         size (contiguous_strides size)).

(** Modelled from the spec: [TensorImpl::empty_tensor_restride] (TensorImpl
    is not among the sources).  The spec says: restriding rewrites the
    strides of the tensor in place, never its storage, to the strides the
    layout engine derives for the format.  The layout engine is
    [strides_for]; when it has no strides for the format and the sizes of the
    tensor, the call raises. *)
Definition empty_tensor_restride `{Externals} (t : TensorImpl)
    (mf : MemoryFormat) : M TensorImpl :=
  emit (EvRestride mf) ;;;
  match strides_for mf (sizes t) with
  | Some s =>
      ret (mkTensorImpl (storage t) (key_set t) (dtype t) (sizes t) s)
  | None => raise (RestrideError mf)
  end.

(** Modelled from the spec: [getCUDAHooks().getPinnedMemoryAllocator()]
    (ATen/detail/CUDAHooksInterface.h is not among the sources).  The spec
    says: resolution fails with an UnsupportedPolicyError if the requested
    combination has no registered allocator; it is side-effect-free and does
    not allocate. *)
Definition getPinnedMemoryAllocator `{Externals} : M Allocator :=
  match pinned_memory_allocator with
  | Some a => ret a
  | None => raise UnsupportedPolicyError
  end.

Definition TORCH_INTERNAL_ASSERT_DEBUG_ONLY `{Externals} (cond : bool)
    : M unit :=
  if NDEBUG then ret tt
  else if cond then ret tt else raise InternalAssertError.

Definition device_or_default (d : option Device) : Device :=
  match d with Some x => x | None => mkDevice DeviceType_CPU (-1) end.

Definition layout_or_default (l : option Layout) : Layout :=
  match l with Some x => x | None => Strided end.

Definition pinned_memory_or_default (p : option bool) : bool :=
  match p with Some x => x | None => false end.

Definition dtype_or_default `{Externals} (d : option ScalarType)
    : ScalarType :=
  match d with Some x => x | None => get_default_dtype_as_scalartype end.

Definition optTypeMetaToScalarType `{Externals} (o : option TypeMeta)
    : M (option ScalarType) :=
  match o with
  | None => ret None
  | Some tm =>
      match typeMetaToScalarType tm with
      | Some s => ret (Some s)
      | None => raise ConversionError
      end
  end.

(** ** EmptyTensor.cpp *)

(** Lines 9-14. *)
Definition GetCPUAllocatorMaybePinned `{Externals} (pin_memory : bool)
    : M Allocator :=
  if pin_memory then getPinnedMemoryAllocator
  else ret GetCPUAllocator.

(** The test of line 43, [size.size() != 1 || size[0] != 0]; the index is
    read only when the length is 1. *)
Definition not_default_shape (size : IntArrayRef) : bool :=
  negb (Nat.eqb (length size) 1) || negb (nth 0 size 0 =? 0).

(** Lines 22-55.  Line 32 multiplies an [int64_t] by the [size_t] that
    [itemsize] returns: the left operand is converted to [size_t], the
    product is taken modulo 2^64 and converted back to the [int64_t]
    variable [size_bytes].  Lines 35-36 hand that variable to the StorageImpl
    constructor and to [allocate], which both take a [size_t]: it is
    converted once more.  An exception of line 50 leaves the function past
    the allocation of line 36; nothing in the function catches it. *)
Definition empty_generic `{Externals} (size : IntArrayRef) (a : Allocator)
    (dispatch_key : DispatchKey) (scalar_type : ScalarType)
    (memory_format : option MemoryFormat) : M TensorBase :=
  check_size_nonnegative size ;;;
  nelements <- lift (multiply_integers size) ;;
  let ty := scalarTypeToTypeMeta scalar_type in
  let nbytes := to_int64 (to_size_t nelements * itemsize ty) in
  p <- Allocator_allocate a (to_size_t nbytes) ;;
  storage_impl <- make_StorageImpl (to_size_t nbytes) p a true ;;
  tensor <- make_tensor_base storage_impl dispatch_key ty ;;
  tensor <- (if not_default_shape size
             then set_sizes_contiguous tensor size
             else ret tensor) ;;
  match memory_format with
  | Some mf =>
      if negb (MemoryFormat_eqb mf Contiguous)
      then empty_tensor_restride tensor mf
      else ret tensor
  | None => ret tensor
  end.

(** Lines 57-61: the overload over resolved values. *)
Definition empty_cpu `{Externals} (size : IntArrayRef)
    (scalar_type : ScalarType) (pin_memory : bool)
    (memory_format : option MemoryFormat) : M TensorBase :=
  a <- GetCPUAllocatorMaybePinned pin_memory ;;
  empty_generic size a DispatchKey_CPU scalar_type memory_format.

(** Lines 63-77: the overload over optional fields. *)
Definition empty_cpu_optional `{Externals} (size : IntArrayRef)
    (scalar_type_opt : option ScalarType) (layout : option Layout)
    (device : option Device) (pin_memory_opt : option bool)
    (memory_format : option MemoryFormat) : M TensorBase :=
  let dev := device_or_default device in
  TORCH_INTERNAL_ASSERT_DEBUG_ONLY (DeviceType_is_CPU (device_type dev)) ;;;
  TORCH_INTERNAL_ASSERT_DEBUG_ONLY
    (Layout_is_Strided (layout_or_default layout)) ;;;
  let pin_memory := pinned_memory_or_default pin_memory_opt in
  let scalar_type := dtype_or_default scalar_type_opt in
  empty_cpu size scalar_type pin_memory memory_format.

(** Lines 79-88: the overload over TensorOptions. *)
Definition empty_cpu_options `{Externals} (size : IntArrayRef)
    (options : TensorOptions) : M TensorBase :=
  scalar_type_opt <- optTypeMetaToScalarType (dtype_opt options) ;;
  empty_cpu_optional size scalar_type_opt (layout_opt options)
    (device_opt options) (pinned_memory_opt options)
    (memory_format_opt options).

(** ** Reference quantities for the statements *)

(** The first negative dimension of a shape, if any. *)
Fixpoint first_negative (l : IntArrayRef) : option Z :=
  match l with
  | [] => None
  | x :: l' => if x <? 0 then Some x else first_negative l'
  end.


(** The byte size lines 35-36 hand over for an element count: the
    [int64_t] of line 32, converted to [size_t]. *)
Definition nbytes_of `{Externals} (nelements : Z) (scalar_type : ScalarType)
    : Z :=
  to_size_t
    (to_int64
       (to_size_t nelements * itemsize (scalarTypeToTypeMeta scalar_type))).

(** The exact byte size of a shape of a type. *)
Definition exact_nbytes `{Externals} (size : IntArrayRef)
    (scalar_type : ScalarType) : Z :=
  product size * itemsize (scalarTypeToTypeMeta scalar_type).

(** Where a failing call of [empty_generic] stopped: at the shape check, at
    the element count, or at the allocator. *)
Definition generic_failure `{Externals} (size : IntArrayRef) (a : Allocator)
    (scalar_type : ScalarType) (w : World) (e : Error) : Prop :=
  (exists x, first_negative size = Some x /\ e = ValidationError x size)
  \/ (first_negative size = None /\
      multiply_integers size = Err OverflowError /\ e = OverflowError)
  \/ (exists n, first_negative size = None /\
        multiply_integers size = Ok n /\
        allocate a w (nbytes_of n scalar_type) = None /\
        e = AllocationError).

(** The format [empty_tensor_restride] is called with, when lines 47-52 call
    it at all. *)
Definition restride_request (mf : option MemoryFormat) : option MemoryFormat :=
  match mf with
  | Some f => if MemoryFormat_eqb f Contiguous then None else Some f
  | None => None
  end.

(** 1 for a call of [empty_generic] that got past the allocation of line 36
    (it returned, or raised in the restride of line 50), 0 for one that
    raised before. *)
Definition built {A} (r : Result A) : nat :=
  match r with
  | Ok _ => 1%nat
  | Err (RestrideError _) => 1%nat
  | Err _ => 0%nat
  end.

(** ** Concrete hosts, for the examples *)

Definition kByte : ScalarType := 0%nat.
Definition kFloat : ScalarType := 6%nat.
Definition kDouble : ScalarType := 7%nat.

(** Widths of the element types above; the index of a TypeMeta is the tag of
    its scalar type, and the indices from 8 on are no scalar types here. *)
Definition host_itemsize (ty : TypeMeta) : Z :=
  match ty with
  | 0%nat => 1
  | 4%nat => 8
  | 6%nat => 4
  | 7%nat => 8
  | _ => 2
  end.

Definition host_typeMetaToScalarType (ty : TypeMeta) : option ScalarType :=
  if Nat.ltb ty 8 then Some ty else None.

Definition host_cpu_allocator : Allocator := 1%nat.
Definition host_pinned_allocator : Allocator := 2%nat.

(** An allocator that serves every request below 2^63 bytes and names the
    buffer after the number of events so far. *)
Definition host_allocate (a : Allocator) (w : World) (n : Z)
    : option DataPtr :=
  if n <? 2 ^ 63 then Some (length w) else None.

(** A layout engine that knows the channels-last strides of a rank-4 shape
    and nothing else. *)
Definition host_strides_for (mf : MemoryFormat) (shape : IntArrayRef)
    : option (list Z) :=
  match mf, shape with
  | ChannelsLast, [_; c; h; w] =>
      Some [to_int64 (stride_factor h * stride_factor w * stride_factor c);
            1;
            to_int64 (stride_factor w * stride_factor c);
            stride_factor c]
  | _, _ => None
  end.

Definition make_host (pinned : option Allocator) (ndebug : bool)
    : Externals :=
  {| scalarTypeToTypeMeta := fun s => s;
     typeMetaToScalarType := host_typeMetaToScalarType;
     itemsize := host_itemsize;
     GetCPUAllocator := host_cpu_allocator;
     pinned_memory_allocator := pinned;
     allocate := host_allocate;
     DispatchKey_CPU := 1%nat;
     get_default_dtype_as_scalartype := kFloat;
     NDEBUG := ndebug;
     strides_for := host_strides_for |}.

(** A release build without CUDA, a debug build without CUDA, and a release
    build whose hooks provide a pinned-memory allocator. *)
Definition cpu_host : Externals := make_host None true.
Definition cpu_host_debug : Externals := make_host None false.
Definition cuda_host : Externals := make_host (Some host_pinned_allocator) true.

(** * Facts *)

(** ** 64-bit conversions *)



Lemma to_int64_congr z : to_int64 z mod 2 ^ 64 = z mod 2 ^ 64.
Proof.
  unfold to_int64.
  rewrite Zminus_mod, Z.mod_mod by lia.
  rewrite <- Zminus_mod. f_equal. lia.
Qed.

Lemma to_int64_of_size_t_mul a b : to_int64 (to_size_t a * b) = to_int64 (a * b).
Proof.
  unfold to_int64, to_size_t. f_equal.
  rewrite <- (Z.add_mod_idemp_l (a mod 2 ^ 64 * b)) by lia.
  rewrite Z.mul_mod_idemp_l by lia.
  rewrite Z.add_mod_idemp_l by lia. reflexivity.
Qed.

Lemma MemoryFormat_eqb_eq a b : MemoryFormat_eqb a b = true <-> a = b.
Proof. destruct a, b; simpl; split; congruence. Qed.

(** ** The shape check *)

Lemma first_negative_Some l x :
  first_negative l = Some x -> In x l /\ x < 0.
Proof.
  induction l as [|d l IH]; simpl; [discriminate|].
  destruct (Z.ltb_spec d 0) as [Hd|Hd]; intros E.
  - injection E as <-. auto.
  - destruct (IH E). auto.
Qed.

Lemma first_negative_None l :
  first_negative l = None <-> Forall (fun d => 0 <= d) l.
Proof.
  induction l as [|d l IH]; simpl.
  - split; auto.
  - destruct (Z.ltb_spec d 0) as [Hd|Hd]; split; intros E.
    + discriminate.
    + inversion E; subst. lia.
    + constructor; [assumption | now apply IH].
    + inversion E; subst. now apply IH.
Qed.

Lemma first_negative_exists l :
  (exists d, In d l /\ d < 0) -> exists x, first_negative l = Some x.
Proof.
  intros (d & Hin & Hd).
  destruct (first_negative l) as [x|] eqn:E; [now exists x|].
  apply first_negative_None in E.
  rewrite Forall_forall in E. specialize (E d Hin). lia.
Qed.

Lemma check_size_nonnegative_from_spec rest size :
  check_size_nonnegative_from rest size =
  match first_negative rest with
  | Some x => Err (ValidationError x size)
  | None => Ok tt
  end.
Proof.
  induction rest as [|d rest IH]; simpl; [reflexivity|].
  destruct (Z.leb_spec 0 d), (Z.ltb_spec d 0); try lia; auto.
Qed.

(** ** The element count *)

Lemma multiply_integers_from_Ok l : forall acc n,
  multiply_integers_from acc l = Ok n -> n = acc * product l.
Proof.
  induction l as [|d l IH]; simpl; intros acc n E.
  - injection E as <-. lia.
  - unfold checked_mul in E.
    destruct (in_int64 (acc * d)); [|discriminate].
    apply IH in E. lia.
Qed.

Lemma multiply_integers_from_Err l : forall acc e,
  multiply_integers_from acc l = Err e -> e = OverflowError.
Proof.
  induction l as [|d l IH]; simpl; intros acc e E; [discriminate|].
  unfold checked_mul in E.
  destruct (in_int64 (acc * d)); [eauto|congruence].
Qed.

Lemma multiply_integers_Ok size n :
  multiply_integers size = Ok n -> n = product size.
Proof.
  intros E. apply multiply_integers_from_Ok in E. lia.
Qed.

Lemma nbytes_of_spec `{Externals} n T :
  nbytes_of n T = to_size_t (n * itemsize (scalarTypeToTypeMeta T)).
Proof.
  unfold nbytes_of. rewrite to_int64_of_size_t_mul.
  unfold to_size_t. apply to_int64_congr.
Qed.

(** ** The normal form of a call of [empty_generic] *)

Lemma empty_generic_unfold `{Externals} size a k T mf w :
  empty_generic size a k T mf w =
  match first_negative size with
  | Some x => (Err (ValidationError x size), w)
  | None =>
      match multiply_integers size with
      | Err e => (Err e, w)
      | Ok n =>
          let nb := nbytes_of n T in
          match allocate a w nb with
          | None => (Err AllocationError, w)
          | Some p =>
              let st := mkStorageImpl nb p a true in
              let ty := scalarTypeToTypeMeta T in
              let t0 := mkTensorImpl st k ty default_sizes default_strides in
              let w0 := EvTensorImpl t0 :: EvStorageImpl st
                        :: EvAllocate a nb p :: w in
              let t1 := if not_default_shape size
                        then mkTensorImpl st k ty size (contiguous_strides size)
                        else t0 in
              let w1 := if not_default_shape size
                        then EvSetSizesContiguous size :: w0 else w0 in
              match mf with
              | Some f =>
                  if negb (MemoryFormat_eqb f Contiguous)
                  then match strides_for f (sizes t1) with
                       | Some s =>
                           (Ok (mkTensorImpl st k ty (sizes t1) s),
                            EvRestride f :: w1)
                       | None => (Err (RestrideError f), EvRestride f :: w1)
                       end
                  else (Ok t1, w1)
              | None => (Ok t1, w1)
              end
          end
      end
  end.
Proof.
  unfold empty_generic, check_size_nonnegative, bind, lift.
  rewrite check_size_nonnegative_from_spec.
  destruct (first_negative size); [reflexivity|].
  destruct (multiply_integers size) as [n|e]; [|reflexivity].
  unfold Allocator_allocate, nbytes_of.
  destruct (allocate a w _) as [p|]; [|reflexivity].
  cbn -[to_int64 to_size_t not_default_shape contiguous_strides].
  destruct (not_default_shape size);
    cbn -[to_int64 to_size_t contiguous_strides];
    destruct mf as [f|]; try reflexivity;
    destruct (MemoryFormat_eqb f Contiguous); try reflexivity;
    unfold empty_tensor_restride, bind, emit;
    cbn -[to_int64 to_size_t contiguous_strides];
    destruct (strides_for f _); reflexivity.
Qed.

Lemma not_default_shape_false size :
  not_default_shape size = false <-> size = default_sizes.
Proof.
  unfold not_default_shape, default_sizes.
  destruct size as [|d [|d' l]]; simpl; split; try discriminate.
  - destruct (Z.eqb_spec d 0); simpl; [congruence | discriminate].
  - intros E; injection E as ->. reflexivity.
Qed.

(** The sizes of the tensor before the restride are the shape asked for,
    with or without the call of [set_sizes_contiguous]. *)
Lemma sizes_before_restride size st k ty :
  sizes (if not_default_shape size
         then mkTensorImpl st k ty size (contiguous_strides size)
         else mkTensorImpl st k ty default_sizes default_strides)
  = size.
Proof.
  destruct (not_default_shape size) eqn:Hd; [reflexivity|].
  apply not_default_shape_false in Hd. now subst size.
Qed.


Lemma empty_generic_Err `{Externals} size a k T mf w e w' :
  empty_generic size a k T mf w = (Err e, w') ->
  (forall f, e <> RestrideError f) ->
  w' = w /\ generic_failure size a T w e.
Proof.
  unfold generic_failure. rewrite empty_generic_unfold.
  destruct (first_negative size) as [x|] eqn:Hneg.
  - intros E _; injection E as <- <-. split; [reflexivity|].
    left. exists x. auto.
  - destruct (multiply_integers size) as [n|e0] eqn:Hmul.
    + cbv zeta.
      destruct (allocate a w _) as [p|] eqn:Hal.
      * destruct mf as [f|]; [destruct (negb _)|]; try discriminate.
        destruct (strides_for f _); [discriminate|].
        intros E Hne; injection E as <- <-. now destruct (Hne f).
      * intros E _; injection E as <- <-. split; [reflexivity|].
        right; right. exists n. auto.
    + intros E _; injection E as <- <-.
      pose proof (multiply_integers_from_Err _ _ _ Hmul) as ->.
      split; [reflexivity|]. right; left. auto.
Qed.

(** A failure of the restride comes after the allocation: the buffer is
    acquired, the StorageImpl and the TensorImpl are built. *)
Lemma empty_generic_RestrideError `{Externals} size a k T mf w f w' :
  empty_generic size a k T mf w = (Err (RestrideError f), w') ->
  exists n p,
    mf = Some f /\ f <> Contiguous /\ strides_for f size = None /\
    first_negative size = None /\
    multiply_integers size = Ok n /\
    allocate a w (nbytes_of n T) = Some p /\
    let st := mkStorageImpl (nbytes_of n T) p a true in
    let t0 := mkTensorImpl st k (scalarTypeToTypeMeta T)
                default_sizes default_strides in
    w' = [EvRestride f]
         ++ (if not_default_shape size
             then [EvSetSizesContiguous size] else [])
         ++ [EvTensorImpl t0; EvStorageImpl st;
             EvAllocate a (nbytes_of n T) p]
         ++ w.
Proof.
  rewrite empty_generic_unfold.
  destruct (first_negative size) as [x|]; [discriminate|].
  destruct (multiply_integers size) as [n|e0] eqn:Hmul.
  2:{ intros E. injection E as E _.
      pose proof (multiply_integers_from_Err _ _ _ Hmul). congruence. }
  cbv zeta.
  destruct (allocate a w _) as [p|] eqn:Hal; [|discriminate].
  destruct mf as [g|]; [|discriminate].
  destruct (MemoryFormat_eqb g Contiguous) eqn:Hq; [discriminate|].
  simpl negb. cbv iota.
  rewrite sizes_before_restride.
  destruct (strides_for g size) eqn:Hs; [discriminate|].
  intros E. injection E as -> <-.
  exists n, p. repeat match goal with |- _ /\ _ => split end; auto.
  - intros ->. discriminate.
  - destruct (not_default_shape size); reflexivity.
Qed.


Lemma GetCPUAllocatorMaybePinned_pure `{Externals} pin w :
  snd (GetCPUAllocatorMaybePinned pin w) = w.
Proof.
  unfold GetCPUAllocatorMaybePinned, getPinnedMemoryAllocator.
  destruct pin; [destruct pinned_memory_allocator|]; reflexivity.
Qed.

Lemma optTypeMetaToScalarType_pure `{Externals} o w :
  snd (optTypeMetaToScalarType o w) = w.
Proof.
  unfold optTypeMetaToScalarType.
  destruct o as [tm|]; [destruct (typeMetaToScalarType tm)|]; reflexivity.
Qed.

(** ** Concrete runs *)

Example empty_cpu_2_3_4 :
  @empty_cpu cpu_host [2; 3; 4] kFloat false None []
  = (Ok (mkTensorImpl (mkStorageImpl 96 0%nat host_cpu_allocator true)
           1%nat kFloat [2; 3; 4] [12; 4; 1]),
     [EvSetSizesContiguous [2; 3; 4];
      EvTensorImpl (mkTensorImpl
                      (mkStorageImpl 96 0%nat host_cpu_allocator true)
                      1%nat kFloat [0] [1]);
      EvStorageImpl (mkStorageImpl 96 0%nat host_cpu_allocator true);
      EvAllocate host_cpu_allocator 96 0%nat]).
Proof. reflexivity. Qed.

Example empty_cpu_pinned_with_cuda :
  exists t w,
    @empty_cpu cuda_host [5] kDouble true None [] = (Ok t, w) /\
    allocator (storage t) = host_pinned_allocator /\
    size_bytes (storage t) = 40.
Proof.
  eexists; eexists. split; [vm_compute; reflexivity|]. split; reflexivity.
Qed.

Example empty_cpu_scalar_shape :
  exists t w,
    @empty_cpu cpu_host [] kDouble false None [] = (Ok t, w) /\
    sizes t = [] /\ strides t = [] /\ size_bytes (storage t) = 8.
Proof.
  eexists; eexists. split; [vm_compute; reflexivity|]. repeat split.
Qed.

(** * The claims *)

(** C2.  A shape with a dimension below 0 is rejected: [empty_generic] fails
    with the ValidationError built from the first negative dimension and the
    whole shape, whatever the allocator, dispatch key, element type, memory
    format and trace, and leaves the trace as it was; so does [empty_cpu]
    once its allocator is resolved. *)
Theorem negative_dimension_rejected `{Externals} (size : IntArrayRef) :
  (exists d, In d size /\ d < 0) ->
  exists x,
    In x size /\ x < 0 /\ first_negative size = Some x /\
    (forall a k T mf w,
        empty_generic size a k T mf w = (Err (ValidationError x size), w)) /\
    (forall T pin mf w a w0,
        GetCPUAllocatorMaybePinned pin w = (Ok a, w0) ->
        empty_cpu size T pin mf w = (Err (ValidationError x size), w)).
Proof.
  intros Hex.
  destruct (first_negative_exists _ Hex) as [x Hx].
  destruct (first_negative_Some _ _ Hx) as [Hin Hlt].
  exists x. repeat split; try assumption.
  - intros. rewrite empty_generic_unfold, Hx. reflexivity.
  - intros T pin mf w a w0 Hres.
    pose proof (GetCPUAllocatorMaybePinned_pure pin w) as Hpure.
    rewrite Hres in Hpure; simpl in Hpure; subst w0.
    unfold empty_cpu, bind. rewrite Hres.
    rewrite empty_generic_unfold, Hx. reflexivity.
Qed.

Lemma negative_dimension_rejected_witness :
  exists x,
    In x [3; -1; -2] /\ x < 0 /\ first_negative [3; -1; -2] = Some x /\
    (forall a k T mf w,
        @empty_generic cpu_host [3; -1; -2] a k T mf w
        = (Err (ValidationError x [3; -1; -2]), w)) /\
    (forall T pin mf w a w0,
        @GetCPUAllocatorMaybePinned cpu_host pin w = (Ok a, w0) ->
        @empty_cpu cpu_host [3; -1; -2] T pin mf w
        = (Err (ValidationError x [3; -1; -2]), w)).
Proof.
  apply (@negative_dimension_rejected cpu_host [3; -1; -2]).
  exists (-1). simpl. split; [tauto | lia].
Defined.

(** C6.  When the hooks have no pinned-memory allocator, [empty_cpu] with
    [pin_memory] set fails with UnsupportedPolicyError for every shape, element
    type and memory format, the trace is the one before the call (nothing was
    allocated), and resolving an allocator never touches the trace. *)
Theorem pinned_without_allocator_fails `{Externals} :
  pinned_memory_allocator = None ->
  forall size T mf w,
    empty_cpu size T true mf w = (Err UnsupportedPolicyError, w) /\
    count is_allocate (snd (empty_cpu size T true mf w))
    = count is_allocate w /\
    (forall pin, snd (GetCPUAllocatorMaybePinned pin w) = w).
Proof.
  intros Hnone size T mf w.
  assert (E : empty_cpu size T true mf w = (Err UnsupportedPolicyError, w)).
  { unfold empty_cpu, bind, GetCPUAllocatorMaybePinned,
      getPinnedMemoryAllocator.
    rewrite Hnone. reflexivity. }
  rewrite E. repeat split.
  intros pin. apply GetCPUAllocatorMaybePinned_pure.
Qed.

Lemma pinned_without_allocator_fails_witness :
  @empty_cpu cpu_host [2; 3] kFloat true None []
  = (Err UnsupportedPolicyError, []).
Proof.
  apply (@pinned_without_allocator_fails cpu_host eq_refl [2; 3] kFloat None []).
Defined.



(** C5.  Asking a fresh tensor for the Contiguous format is the identity: the
    call with [Some Contiguous] is the call with no format, on every input,
    results and traces alike.  When it returns, [empty_tensor_restride] was
    not invoked, exactly one buffer was acquired and it is the one the
    storage holds, and the strides are those the builder installed. *)
Theorem contiguous_request_is_identity `{Externals} size a k T w :
  empty_generic size a k T (Some Contiguous) w
  = empty_generic size a k T None w /\
  (forall t w',
      empty_generic size a k T (Some Contiguous) w = (Ok t, w') ->
      count is_restride w' = count is_restride w /\
      count is_allocate w' = S (count is_allocate w) /\
      count is_storage w' = S (count is_storage w) /\
      In (EvAllocate a (size_bytes (storage t)) (data_ptr (storage t))) w' /\
      In (EvStorageImpl (storage t)) w' /\
      sizes t = size /\
      strides t = (if not_default_shape size
                   then contiguous_strides size else default_strides)).
Proof.
  split.
  - rewrite !empty_generic_unfold.
    destruct (first_negative size); [reflexivity|].
    destruct (multiply_integers size); [|reflexivity].
    cbv zeta. destruct (allocate a w _); reflexivity.
  - intros t w'. rewrite empty_generic_unfold.
    destruct (first_negative size); [discriminate|].
    destruct (multiply_integers size) as [n|]; [|discriminate].
    cbv zeta. destruct (allocate a w _) as [p|]; [|discriminate].
    simpl negb. cbv iota.
    destruct (not_default_shape size) eqn:Hd; intros E;
      injection E as <- <-; unfold count; simpl;
      repeat split; auto.
    apply not_default_shape_false in Hd. symmetry. exact Hd.
Qed.

Lemma contiguous_request_is_identity_witness :
  @empty_generic cpu_host [2; 3; 4] host_cpu_allocator 1%nat kFloat
    (Some Contiguous) []
  = @empty_generic cpu_host [2; 3; 4] host_cpu_allocator 1%nat kFloat None [] /\
  count is_restride
    (snd (@empty_generic cpu_host [2; 3; 4] host_cpu_allocator 1%nat kFloat
            (Some Contiguous) [])) = 0%nat.
Proof.
  pose proof (@contiguous_request_is_identity cpu_host [2; 3; 4]
                host_cpu_allocator 1%nat kFloat []) as [Heq Hok].
  split; [exact Heq|].
  destruct (@empty_generic cpu_host [2; 3; 4] host_cpu_allocator 1%nat kFloat
              (Some Contiguous) []) as [[t|e] w'] eqn:E.
  - destruct (Hok t w' eq_refl) as [Hr _]. exact Hr.
  - vm_compute in E. discriminate.
Defined.

(** C4.  With the default shape [0] the call returns, once the allocator
    serves the 0 bytes asked of it, a tensor whose sizes are the literal [0]
    and whose storage holds 0 bytes, for every element type, allocator,
    dispatch key and memory format (one other than Contiguous has to be served
    by the layout engine); [set_sizes_contiguous] is not invoked, and without
    a format other than Contiguous the strides are the default ones. *)
Theorem default_shape_kept `{Externals} a k T mf w p :
  allocate a w 0 = Some p ->
  (forall f, mf = Some f -> f <> Contiguous -> strides_for f [0] <> None) ->
  exists t w',
    empty_generic [0] a k T mf w = (Ok t, w') /\
    sizes t = [0] /\
    size_bytes (storage t) = 0 /\
    data_ptr (storage t) = p /\
    count is_set_sizes w' = count is_set_sizes w /\
    (mf = None \/ mf = Some Contiguous ->
     strides t = default_strides /\
     t = mkTensorImpl (mkStorageImpl 0 p a true) k (scalarTypeToTypeMeta T)
           default_sizes default_strides).
Proof.
  intros Hal Hserved. rewrite empty_generic_unfold.
  change (first_negative [0]) with (@None Z).
  change (multiply_integers [0]) with (Ok 0).
  assert (Hnb : nbytes_of 0 T = 0) by reflexivity.
  cbv beta iota zeta. rewrite Hnb.
  rewrite Hal.
  change (not_default_shape [0]) with false. cbv iota.
  destruct mf as [f|];
    [destruct (MemoryFormat_eqb f Contiguous) eqn:Hf; simpl negb; cbv iota|].
  - eexists; eexists; (split; [reflexivity|]).
    unfold count; simpl.
    repeat match goal with |- _ /\ _ => split end; auto.
  - simpl sizes.
    destruct (strides_for f default_sizes) as [s|] eqn:Hs.
    + eexists; eexists; (split; [reflexivity|]).
      unfold count; simpl.
      repeat match goal with |- _ /\ _ => split end; auto.
      intros [Hc|Hc]; [discriminate|].
      injection Hc as ->. discriminate.
    + exfalso. apply (Hserved f eq_refl); [|exact Hs].
      intros ->. discriminate.
  - eexists; eexists; (split; [reflexivity|]).
    unfold count; simpl.
    repeat match goal with |- _ /\ _ => split end; auto.
Qed.

Lemma default_shape_kept_witness :
  exists t w',
    @empty_generic cpu_host [0] host_cpu_allocator 1%nat kDouble None []
    = (Ok t, w') /\
    sizes t = [0] /\ size_bytes (storage t) = 0.
Proof.
  destruct (@default_shape_kept cpu_host host_cpu_allocator 1%nat kDouble
              None [] 0%nat eq_refl ltac:(discriminate))
    as (t & w' & E & Hs & Hb & _).
  exists t, w'. auto.
Defined.

(** C10.  The default-shape case and the format branch are independent: with
    the shape [0] and a format other than Contiguous, the call is the call
    without a format followed by [empty_tensor_restride] on the tensor it
    built.  That tensor still has the default sizes and strides, and
    [set_sizes_contiguous] is invoked in neither call. *)
Theorem default_shape_still_restrided `{Externals} a k T f w p :
  f <> Contiguous ->
  allocate a w 0 = Some p ->
  exists t0 w0,
    empty_generic [0] a k T None w = (Ok t0, w0) /\
    empty_generic [0] a k T (Some f) w = empty_tensor_restride t0 f w0 /\
    sizes t0 = default_sizes /\
    strides t0 = default_strides /\
    count is_set_sizes w0 = count is_set_sizes w /\
    snd (empty_generic [0] a k T (Some f) w) = EvRestride f :: w0 /\
    count is_restride (snd (empty_generic [0] a k T (Some f) w))
    = S (count is_restride w) /\
    count is_set_sizes (snd (empty_generic [0] a k T (Some f) w))
    = count is_set_sizes w.
Proof.
  intros Hf Hal. rewrite !empty_generic_unfold.
  change (first_negative [0]) with (@None Z).
  change (multiply_integers [0]) with (Ok 0).
  assert (Hnb : nbytes_of 0 T = 0) by reflexivity.
  cbv beta iota zeta. rewrite Hnb.
  rewrite Hal.
  change (not_default_shape [0]) with false. cbv iota.
  assert (Hneq : negb (MemoryFormat_eqb f Contiguous) = true).
  { destruct f; try reflexivity. congruence. }
  rewrite Hneq. simpl sizes.
  destruct (strides_for f default_sizes) as [s|] eqn:Hs;
    (eexists; eexists; split; [reflexivity|]);
    unfold empty_tensor_restride, bind, emit, ret, raise;
    unfold default_sizes in *; cbn [sizes storage key_set dtype];
    rewrite Hs; unfold count; simpl; repeat split; auto.
Qed.

Lemma default_shape_still_restrided_witness :
  exists t0 w0,
    @empty_generic cpu_host [0] host_cpu_allocator 1%nat kFloat None []
    = (Ok t0, w0) /\
    @empty_generic cpu_host [0] host_cpu_allocator 1%nat kFloat
      (Some ChannelsLast) []
    = @empty_tensor_restride cpu_host t0 ChannelsLast w0.
Proof.
  destruct (@default_shape_still_restrided cpu_host host_cpu_allocator 1%nat
              kFloat ChannelsLast [] 0%nat ltac:(discriminate) eq_refl)
    as (t0 & w0 & E0 & E1 & _).
  exists t0, w0. auto.
Defined.

(** ** Row-major strides *)











Lemma product_app l1 l2 : product (l1 ++ l2) = product l1 * product l2.
Proof.
  unfold product. induction l1 as [|d l1 IH]; cbn [fold_right app]; [lia|].
  rewrite IH. lia.
Qed.






Lemma empty_generic_returns `{Externals} size a k T mf w n p :
  first_negative size = None ->
  multiply_integers size = Ok n ->
  allocate a w (nbytes_of n T) = Some p ->
  (forall f, mf = Some f -> f <> Contiguous -> strides_for f size <> None) ->
  exists t w',
    empty_generic size a k T mf w = (Ok t, w') /\
    storage t = mkStorageImpl (nbytes_of n T) p a true.
Proof.
  intros Hn Hm Ha Hserved. rewrite empty_generic_unfold, Hn, Hm.
  cbv zeta. rewrite Ha.
  destruct mf as [f|];
    [destruct (MemoryFormat_eqb f Contiguous) eqn:Hq; simpl negb; cbv iota|].
  - eexists; eexists; split; [reflexivity|].
    destruct (not_default_shape size); reflexivity.
  - rewrite sizes_before_restride.
    destruct (strides_for f size) as [s|] eqn:Hs.
    + eexists; eexists; split; reflexivity.
    + exfalso. apply (Hserved f eq_refl); [|exact Hs].
      intros ->. discriminate.
  - eexists; eexists; split; [reflexivity|].
    destruct (not_default_shape size); reflexivity.
Qed.




(** ** Overflow of the byte size *)

(** C1.  The byte size is not overflow-checked.  At the shape [2^62] of a
    4-byte element type the element count fits 64 bits and the byte size 2^64
    does not; the call raises no OverflowError: the allocator is asked for 0
    bytes and the tensor returned has the sizes [2^62] over a storage of 0
    bytes. *)
Lemma byte_size_overflow_unchecked :
  multiply_integers [2 ^ 62] = Ok (2 ^ 62) /\
  in_int64 (@exact_nbytes cpu_host [2 ^ 62] kFloat) = false /\
  fst (@empty_generic cpu_host [2 ^ 62] host_cpu_allocator 1%nat kFloat None [])
  <> Err OverflowError /\
  exists t w',
    @empty_generic cpu_host [2 ^ 62] host_cpu_allocator 1%nat kFloat None []
    = (Ok t, w') /\
    sizes t = [2 ^ 62] /\
    size_bytes (storage t) = 0 /\
    In (EvAllocate host_cpu_allocator 0 (data_ptr (storage t))) w'.
Proof.
  split; [reflexivity|].
  split; [vm_compute; reflexivity|].
  split; [vm_compute; discriminate|].
  eexists; eexists. split; [vm_compute; reflexivity|].
  split; [reflexivity|]. split; [reflexivity|].
  simpl. auto.
Qed.

(** C3.  The byte size of the storage is not the product of the dimensions
    times the width when that does not fit 64 bits: the shape [2^31, 2^31] of
    an 8-byte type has all dimensions above 0 and 2^65 bytes, and the storage
    of the tensor returned holds 0 bytes. *)
Lemma storage_byte_size_wraps :
  exists t w',
    @empty_generic cpu_host [2 ^ 31; 2 ^ 31] host_cpu_allocator 1%nat kDouble
      None [] = (Ok t, w') /\
    Forall (fun d => 0 <= d) [2 ^ 31; 2 ^ 31] /\
    sizes t = [2 ^ 31; 2 ^ 31] /\
    size_bytes (storage t) = 0 /\
    @exact_nbytes cpu_host [2 ^ 31; 2 ^ 31] kDouble = 2 ^ 65 /\
    size_bytes (storage t) <> @exact_nbytes cpu_host [2 ^ 31; 2 ^ 31] kDouble.
Proof.
  eexists; eexists. split; [vm_compute; reflexivity|].
  split; [repeat constructor; lia|].
  split; [reflexivity|].
  split; [reflexivity|].
  split; [reflexivity|].
  vm_compute. discriminate.
Qed.

(** ** The overloads of [empty_cpu] *)

(** C9 (amended).  The TensorOptions overload is the optional-fields overload
    at the fields extracted from the options (and fails as the dtype
    conversion does when that fails).  The optional-fields overload is the
    resolved-value overload at the defaulted dtype and pin-memory values
    whenever the debug-only assertions are compiled out or hold, that is the
    defaulted device is a CPU device and the defaulted layout is Strided; in a
    debug build it fails with an internal assertion on any other input. *)
Theorem empty_cpu_overloads_agree `{Externals} size :
  (forall options w d w1,
      optTypeMetaToScalarType (dtype_opt options) w = (Ok d, w1) ->
      empty_cpu_options size options w
      = empty_cpu_optional size d (layout_opt options) (device_opt options)
          (pinned_memory_opt options) (memory_format_opt options) w) /\
  (forall options w e w1,
      optTypeMetaToScalarType (dtype_opt options) w = (Err e, w1) ->
      empty_cpu_options size options w = (Err e, w)) /\
  (forall d l dev pin mf w,
      NDEBUG = true \/
      (device_type (device_or_default dev) = DeviceType_CPU /\
       layout_or_default l = Strided) ->
      empty_cpu_optional size d l dev pin mf w
      = empty_cpu size (dtype_or_default d) (pinned_memory_or_default pin)
          mf w) /\
  (forall d l dev pin mf w,
      NDEBUG = false ->
      DeviceType_is_CPU (device_type (device_or_default dev))
      && Layout_is_Strided (layout_or_default l) = false ->
      empty_cpu_optional size d l dev pin mf w = (Err InternalAssertError, w)).
Proof.
  repeat match goal with |- _ /\ _ => split end.
  - intros options w d w1 E.
    pose proof (optTypeMetaToScalarType_pure (dtype_opt options) w) as Hp.
    rewrite E in Hp; simpl in Hp; subst w1.
    unfold empty_cpu_options, bind. rewrite E. reflexivity.
  - intros options w e w1 E.
    pose proof (optTypeMetaToScalarType_pure (dtype_opt options) w) as Hp.
    rewrite E in Hp; simpl in Hp; subst w1.
    unfold empty_cpu_options, bind. rewrite E. reflexivity.
  - intros d l dev pin mf w Hpre.
    unfold empty_cpu_optional, bind, TORCH_INTERNAL_ASSERT_DEBUG_ONLY.
    destruct NDEBUG; [reflexivity|].
    destruct Hpre as [Hpre | [Hdev Hlay]]; [discriminate|].
    rewrite Hdev, Hlay. reflexivity.
  - intros d l dev pin mf w Hdbg Hbad.
    unfold empty_cpu_optional, bind, TORCH_INTERNAL_ASSERT_DEBUG_ONLY.
    rewrite Hdbg.
    destruct (DeviceType_is_CPU _); [|reflexivity].
    simpl in Hbad. rewrite Hbad. reflexivity.
Qed.

Lemma empty_cpu_overloads_agree_witness :
  @empty_cpu_optional cpu_host [3] None (Some Sparse)
    (Some (mkDevice DeviceType_CUDA 0)) None None []
  = @empty_cpu cpu_host [3] kFloat false None [].
Proof.
  apply (proj1 (proj2 (proj2 (@empty_cpu_overloads_agree cpu_host [3])))
           None (Some Sparse) (Some (mkDevice DeviceType_CUDA 0)) None None []).
  left. reflexivity.
Defined.

(** C9 as stated fails in a debug build: with a CUDA device the
    optional-fields overload raises an internal assertion, while the
    resolved-value overload at the defaulted values returns a tensor. *)
Lemma debug_assertion_separates_overloads :
  @empty_cpu_optional cpu_host_debug [3] None None
    (Some (mkDevice DeviceType_CUDA 0)) None None []
  = (Err InternalAssertError, []) /\
  (exists t w',
      @empty_cpu cpu_host_debug [3]
        (@dtype_or_default cpu_host_debug None)
        (pinned_memory_or_default None) None []
      = (Ok t, w')) /\
  @empty_cpu_optional cpu_host_debug [3] None None
    (Some (mkDevice DeviceType_CUDA 0)) None None []
  <> @empty_cpu cpu_host_debug [3]
       (@dtype_or_default cpu_host_debug None)
       (pinned_memory_or_default None) None [].
Proof.
  split; [reflexivity|].
  split; [eexists; eexists; vm_compute; reflexivity|].
  vm_compute. discriminate.
Qed.

(** * Further properties of the allocation path *)

(** ** What a call that returned has done *)

Lemma empty_generic_Ok_full `{Externals} size a k T mf w t w' :
  empty_generic size a k T mf w = (Ok t, w') ->
  exists n p sd,
    first_negative size = None /\
    multiply_integers size = Ok n /\
    allocate a w (nbytes_of n T) = Some p /\
    let st := mkStorageImpl (nbytes_of n T) p a true in
    let ty := scalarTypeToTypeMeta T in
    let t0 := mkTensorImpl st k ty default_sizes default_strides in
    t = mkTensorImpl st k ty size sd /\
    match restride_request mf with
    | Some f => strides_for f size = Some sd
    | None => sd = contiguous_strides size
    end /\
    w' = match restride_request mf with
         | Some f => [EvRestride f]
         | None => []
         end
         ++ (if not_default_shape size
             then [EvSetSizesContiguous size] else [])
         ++ [EvTensorImpl t0; EvStorageImpl st;
             EvAllocate a (nbytes_of n T) p]
         ++ w.
Proof.
  rewrite empty_generic_unfold.
  destruct (first_negative size) as [x|]; [discriminate|].
  destruct (multiply_integers size) as [n|e0]; [|discriminate].
  cbv zeta.
  destruct (allocate a w _) as [p|] eqn:Hal; [|discriminate].
  unfold restride_request.
  destruct mf as [f|];
    [destruct (MemoryFormat_eqb f Contiguous); simpl negb; cbv iota|].
  - intros E. injection E as <- <-.
    exists n, p, (contiguous_strides size).
    do 3 (split; [reflexivity || exact Hal|]).
    split; [|split; [reflexivity|]].
    + destruct (not_default_shape size) eqn:Hd; [reflexivity|].
      apply not_default_shape_false in Hd. now subst size.
    + destruct (not_default_shape size); reflexivity.
  - rewrite sizes_before_restride.
    destruct (strides_for f size) as [s|] eqn:Hs; [|discriminate].
    intros E. injection E as <- <-.
    exists n, p, s.
    do 3 (split; [reflexivity || exact Hal|]).
    split; [reflexivity|]. split; [reflexivity|].
    destruct (not_default_shape size); reflexivity.
  - intros E. injection E as <- <-.
    exists n, p, (contiguous_strides size).
    do 3 (split; [reflexivity || exact Hal|]).
    split; [|split; [reflexivity|]].
    + destruct (not_default_shape size) eqn:Hd; [reflexivity|].
      apply not_default_shape_false in Hd. now subst size.
    + destruct (not_default_shape size); reflexivity.
Qed.

Lemma count_app p (u v : World) :
  count p (u ++ v) = (count p u + count p v)%nat.
Proof.
  unfold count. rewrite filter_app, length_app. reflexivity.
Qed.

Lemma product_with_zero size : In 0 size -> product size = 0.
Proof.
  unfold product.
  induction size as [|d size IH]; simpl; [tauto|].
  intros [->|Hin]; [reflexivity|].
  rewrite (IH Hin). lia.
Qed.

Lemma empty_cpu_Ok `{Externals} size T pin mf w t w' :
  empty_cpu size T pin mf w = (Ok t, w') ->
  exists a,
    GetCPUAllocatorMaybePinned pin w = (Ok a, w) /\
    empty_generic size a DispatchKey_CPU T mf w = (Ok t, w').
Proof.
  unfold empty_cpu, bind.
  pose proof (GetCPUAllocatorMaybePinned_pure pin w) as Hp.
  destruct (GetCPUAllocatorMaybePinned pin w) as [[a|e] w1];
    simpl in Hp; subst w1; [|discriminate].
  intros E. exists a. auto.
Qed.

Lemma first_negative_app pre x post :
  Forall (fun d => 0 <= d) pre -> x < 0 ->
  first_negative (pre ++ x :: post) = Some x.
Proof.
  induction 1 as [|d pre Hd _ IH]; intros Hx; simpl.
  - destruct (Z.ltb_spec x 0); [reflexivity | lia].
  - destruct (Z.ltb_spec d 0); [lia | auto].
Qed.

(** X1.  [check_size_nonnegative] returns exactly on the shapes whose
    dimensions are all at least 0; on any other shape it raises for the
    leftmost negative dimension (the dimensions after it are not looked at)
    with the whole shape in the message; it never touches the trace. *)
Theorem check_size_nonnegative_accepts_iff (size : IntArrayRef) (w : World) :
  (check_size_nonnegative size w = (Ok tt, w)
   <-> Forall (fun d => 0 <= d) size) /\
  (forall pre x post,
      size = pre ++ x :: post ->
      Forall (fun d => 0 <= d) pre -> x < 0 ->
      check_size_nonnegative size w = (Err (ValidationError x size), w)) /\
  snd (check_size_nonnegative size w) = w.
Proof.
  unfold check_size_nonnegative, lift.
  rewrite check_size_nonnegative_from_spec.
  split; [split|split].
  - destruct (first_negative size) as [x|] eqn:E; [intros Hc; discriminate|].
    intros _. now apply first_negative_None.
  - intros Hall. apply first_negative_None in Hall. now rewrite Hall.
  - intros pre x post -> Hpre Hx.
    now rewrite (first_negative_app pre x post Hpre Hx).
  - reflexivity.
Qed.

Lemma check_size_nonnegative_accepts_iff_witness :
  check_size_nonnegative [3; -1; 7; -2] [] =
  (Err (ValidationError (-1) [3; -1; 7; -2]), []).
Proof.
  apply (proj1 (proj2 (check_size_nonnegative_accepts_iff [3; -1; 7; -2] []))
           [3] (-1) [7; -2] eq_refl).
  - repeat constructor. lia.
  - lia.
Defined.

(** X2.  Event accounting of [empty_generic], whatever the outcome.  A call
    that got past the allocation of line 36 (it returned, or it raised in the
    restride of line 50) has acquired one buffer and built one StorageImpl and
    one TensorImpl; a call that raised before has done none of it.  Such a
    call has invoked [set_sizes_contiguous] once unless the shape is exactly
    [0], and [empty_tensor_restride] once if the format is other than
    Contiguous, never otherwise.  Without a format other than Contiguous a
    call that raises has acquired nothing. *)
Theorem empty_generic_event_accounting `{Externals} size a k T mf w r w' :
  empty_generic size a k T mf w = (r, w') ->
  count is_allocate w' = (count is_allocate w + built r)%nat /\
  count is_storage w' = (count is_storage w + built r)%nat /\
  count is_tensor w' = (count is_tensor w + built r)%nat /\
  (size = [0] -> count is_set_sizes w' = count is_set_sizes w) /\
  (size <> [0] ->
   count is_set_sizes w' = (count is_set_sizes w + built r)%nat) /\
  (mf = None \/ mf = Some Contiguous ->
   count is_restride w' = count is_restride w) /\
  (forall f, mf = Some f -> f <> Contiguous ->
   count is_restride w' = (count is_restride w + built r)%nat) /\
  (mf = None \/ mf = Some Contiguous ->
   forall e, r = Err e -> built r = 0%nat /\ w' = w).
Proof.
  intros E.
  assert (Hcases :
    (exists e, r = Err e /\ built r = 0%nat /\ w' = w) \/
    (built r = 1%nat /\
     exists evs,
       w' = match restride_request mf with
            | Some f => [EvRestride f]
            | None => []
            end
            ++ (if not_default_shape size
                then [EvSetSizesContiguous size] else [])
            ++ evs ++ w /\
       count is_allocate evs = 1%nat /\ count is_storage evs = 1%nat /\
       count is_tensor evs = 1%nat /\ count is_set_sizes evs = 0%nat /\
       count is_restride evs = 0%nat)).
  { destruct r as [t|e].
    - right. split; [reflexivity|].
      destruct (empty_generic_Ok_full _ _ _ _ _ _ _ _ E)
        as (n & p & sd & _ & _ & _ & _ & _ & ->).
      eexists. split; [reflexivity|]. repeat split.
    - destruct e as [x sz| | | | | |f];
        try (left; eexists; split; [reflexivity|]; split; [reflexivity|];
             apply (empty_generic_Err _ _ _ _ _ _ _ _ E);
             intros f; discriminate).
      right. split; [reflexivity|].
      destruct (empty_generic_RestrideError _ _ _ _ _ _ _ _ E)
        as (n & p & -> & Hf & _ & _ & _ & _ & ->).
      unfold restride_request.
      destruct (MemoryFormat_eqb f Contiguous) eqn:Hq;
        [apply MemoryFormat_eqb_eq in Hq; contradiction|].
      eexists. split; [reflexivity|]. repeat split. }
  destruct Hcases as [(e & -> & Hb & ->) | (Hb & evs & -> & Ha & Hs & Ht & Hz & Hr)].
  - rewrite Hb, !Nat.add_0_r.
    repeat match goal with |- _ /\ _ => split end; auto.
  - rewrite Hb, !count_app, Ha, Hs, Ht, Hz, Hr.
    repeat match goal with |- _ /\ _ => split end.
    + destruct (restride_request mf), (not_default_shape size);
        unfold count; simpl; lia.
    + destruct (restride_request mf), (not_default_shape size);
        unfold count; simpl; lia.
    + destruct (restride_request mf), (not_default_shape size);
        unfold count; simpl; lia.
    + intros ->. change (not_default_shape [0]) with false.
      destruct (restride_request mf); unfold count; simpl; lia.
    + intros Hsz.
      destruct (not_default_shape size) eqn:Hd;
        [|apply not_default_shape_false in Hd; contradiction].
      destruct (restride_request mf); unfold count; simpl; lia.
    + intros [-> | ->]; simpl;
        destruct (not_default_shape size); unfold count; simpl; lia.
    + intros f -> Hf. unfold restride_request.
      destruct (MemoryFormat_eqb f Contiguous) eqn:Hq;
        [apply MemoryFormat_eqb_eq in Hq; contradiction|].
      destruct (not_default_shape size); unfold count; simpl; lia.
    + intros Hmf e ->. exfalso.
      destruct e as [x sz| | | | | |f]; try discriminate.
      destruct (empty_generic_RestrideError _ _ _ _ _ _ _ _ E)
        as (n & p & Hmf' & Hf & _).
      destruct Hmf as [-> | ->]; [discriminate|].
      injection Hmf' as <-. now apply Hf.
Qed.

Lemma empty_generic_event_accounting_witness :
  fst (@empty_generic cpu_host [0; 0] host_cpu_allocator 1%nat kFloat
         (Some ChannelsLast) []) = Err (RestrideError ChannelsLast) /\
  count is_allocate
    (snd (@empty_generic cpu_host [0; 0] host_cpu_allocator 1%nat kFloat
            (Some ChannelsLast) [])) = 1%nat /\
  count is_set_sizes
    (snd (@empty_generic cpu_host [0; 0] host_cpu_allocator 1%nat kFloat
            (Some ChannelsLast) [])) = 1%nat.
Proof.
  destruct (@empty_generic cpu_host [0; 0] host_cpu_allocator 1%nat kFloat
              (Some ChannelsLast) []) as [r w'] eqn:E.
  destruct (@empty_generic_event_accounting cpu_host _ _ _ _ _ _ _ _ E)
    as (Ha & _ & _ & _ & Hs & _).
  assert (Hr : r = Err (RestrideError ChannelsLast)).
  { vm_compute in E. injection E as <- _. reflexivity. }
  simpl. rewrite Ha, Hs by discriminate. rewrite Hr.
  repeat split.
Defined.

(** X3.  The tensor a call of [empty_generic] returns, for every memory
    format: its sizes are the shape asked for (also for the shape [0], where
    they are not set), its dispatch key and dtype are the ones passed in, its
    storage is resizable, names the allocator passed in and holds the very
    buffer that allocator returned for the byte size the storage records;
    with a format other than Contiguous the strides are those of the layout
    engine for that format. *)
Theorem empty_generic_tensor_fields `{Externals} size a k T mf w t w' :
  empty_generic size a k T mf w = (Ok t, w') ->
  sizes t = size /\
  key_set t = k /\
  dtype t = scalarTypeToTypeMeta T /\
  allocator (storage t) = a /\
  resizable (storage t) = true /\
  allocate a w (size_bytes (storage t)) = Some (data_ptr (storage t)) /\
  In (EvAllocate a (size_bytes (storage t)) (data_ptr (storage t))) w' /\
  In (EvStorageImpl (storage t)) w' /\
  (forall f, mf = Some f -> f <> Contiguous ->
   strides_for f size = Some (strides t)).
Proof.
  intros E.
  destruct (empty_generic_Ok_full _ _ _ _ _ _ _ _ E)
    as (n & p & sd & _ & _ & Hal & -> & Hsd & ->).
  simpl. repeat match goal with |- _ /\ _ => split end; auto.
  - rewrite !in_app_iff. right; right. simpl. auto.
  - rewrite !in_app_iff. right; right. simpl. auto.
  - intros f -> Hf. unfold restride_request in Hsd.
    destruct (MemoryFormat_eqb f Contiguous) eqn:Hq;
      [apply MemoryFormat_eqb_eq in Hq; contradiction | exact Hsd].
Qed.

Lemma empty_generic_tensor_fields_witness :
  exists t w',
    @empty_generic cpu_host [1; 3; 2; 2] host_cpu_allocator 1%nat kFloat
      (Some ChannelsLast) [] = (Ok t, w') /\
    sizes t = [1; 3; 2; 2] /\
    strides t = [12; 1; 6; 3].
Proof.
  assert (E : exists t w',
             @empty_generic cpu_host [1; 3; 2; 2] host_cpu_allocator 1%nat
               kFloat (Some ChannelsLast) [] = (Ok t, w'))
    by (eexists; eexists; vm_compute; reflexivity).
  destruct E as (t & w' & E).
  exists t, w'. split; [exact E|].
  destruct (@empty_generic_tensor_fields cpu_host _ _ _ _ _ _ _ _ E)
    as (Hs & _ & _ & _ & _ & _ & _ & _ & Hst).
  split; [exact Hs|].
  specialize (Hst ChannelsLast eq_refl ltac:(discriminate)).
  change (Some [12; 1; 6; 3] = Some (strides t)) in Hst.
  now injection Hst as <-.
Defined.

(** X4.  For every shape, a call of [empty_generic] with a format other than
    Contiguous is the call without a format followed by
    [empty_tensor_restride] on the tensor it returned: the format has no part
    in the checks, the sizing or the allocation. *)
Theorem format_is_restride_after_build `{Externals} size a k T f w :
  f <> Contiguous ->
  empty_generic size a k T (Some f) w
  = (t <- empty_generic size a k T None ;; empty_tensor_restride t f) w.
Proof.
  intros Hf. unfold bind at 1.
  rewrite !empty_generic_unfold.
  destruct (first_negative size); [reflexivity|].
  destruct (multiply_integers size); [|reflexivity].
  cbv zeta. destruct (allocate a w _); [|reflexivity].
  destruct (MemoryFormat_eqb f Contiguous) eqn:Hq;
    [apply MemoryFormat_eqb_eq in Hq; contradiction|].
  simpl negb. cbv iota.
  unfold empty_tensor_restride, bind, emit, ret, raise.
  destruct (not_default_shape size); cbn [sizes];
    match goal with
    | |- context [strides_for f ?x] => destruct (strides_for f x)
    end; reflexivity.
Qed.

Lemma format_is_restride_after_build_witness :
  @empty_generic cpu_host [1; 3; 2; 2] host_cpu_allocator 1%nat kFloat
    (Some ChannelsLast) []
  = (t <- @empty_generic cpu_host [1; 3; 2; 2] host_cpu_allocator 1%nat
            kFloat None ;;
     @empty_tensor_restride cpu_host t ChannelsLast) [].
Proof.
  apply (@format_is_restride_after_build cpu_host). discriminate.
Defined.

(** X5.  The memory format is a layout choice only.  Two calls of
    [empty_generic] that differ in the format alone ask the allocator for the
    same buffers; a failure of one that is not the restride's is the failure
    of the other, with the trace untouched; and when both return, the two
    tensors sit on equal storages (same byte size, buffer and allocator) and
    have equal sizes, key and dtype. *)
Theorem format_does_not_affect_storage `{Externals} size a k T mf1 mf2 w :
  (forall e w1,
      empty_generic size a k T mf1 w = (Err e, w1) ->
      (forall f, e <> RestrideError f) ->
      empty_generic size a k T mf2 w = (Err e, w)) /\
  (forall t1 w1 t2 w2,
      empty_generic size a k T mf1 w = (Ok t1, w1) ->
      empty_generic size a k T mf2 w = (Ok t2, w2) ->
      storage t1 = storage t2 /\ sizes t1 = sizes t2 /\
      key_set t1 = key_set t2 /\ dtype t1 = dtype t2) /\
  filter is_allocate (snd (empty_generic size a k T mf1 w))
  = filter is_allocate (snd (empty_generic size a k T mf2 w)).
Proof.
  repeat match goal with |- _ /\ _ => split end.
  - intros e w1 E Hne.
    destruct (empty_generic_Err _ _ _ _ _ _ _ _ E Hne) as [_ Hg].
    rewrite empty_generic_unfold.
    destruct Hg as [(x & -> & ->) | [(-> & -> & ->) | (n & -> & -> & Hal & ->)]];
      try reflexivity.
    cbv zeta. now rewrite Hal.
  - intros t1 w1 t2 w2 E1 E2.
    destruct (empty_generic_Ok_full _ _ _ _ _ _ _ _ E1)
      as (n1 & p1 & sd1 & _ & Hm1 & Ha1 & -> & _).
    destruct (empty_generic_Ok_full _ _ _ _ _ _ _ _ E2)
      as (n2 & p2 & sd2 & _ & Hm2 & Ha2 & -> & _).
    rewrite Hm1 in Hm2. injection Hm2 as <-.
    rewrite Ha1 in Ha2. injection Ha2 as <-.
    simpl. auto.
  - rewrite !empty_generic_unfold.
    destruct (first_negative size); [reflexivity|].
    destruct (multiply_integers size); [|reflexivity].
    cbv zeta. destruct (allocate a w _); [|reflexivity].
    rewrite !sizes_before_restride.
    destruct mf1 as [f1|];
      [destruct (negb (MemoryFormat_eqb f1 Contiguous));
       [destruct (strides_for f1 size)|]|];
      (destruct mf2 as [f2|];
       [destruct (negb (MemoryFormat_eqb f2 Contiguous));
        [destruct (strides_for f2 size)|]|]);
      destruct (not_default_shape size); reflexivity.
Qed.

Lemma format_does_not_affect_storage_witness :
  exists t1 w1 t2 w2,
    @empty_generic cpu_host [1; 3; 2; 2] host_cpu_allocator 1%nat kFloat
      None [] = (Ok t1, w1) /\
    @empty_generic cpu_host [1; 3; 2; 2] host_cpu_allocator 1%nat kFloat
      (Some ChannelsLast) [] = (Ok t2, w2) /\
    storage t1 = storage t2 /\ strides t1 <> strides t2.
Proof.
  assert (E1 : exists t1 w1,
             @empty_generic cpu_host [1; 3; 2; 2] host_cpu_allocator 1%nat
               kFloat None [] = (Ok t1, w1))
    by (eexists; eexists; vm_compute; reflexivity).
  assert (E2 : exists t2 w2,
             @empty_generic cpu_host [1; 3; 2; 2] host_cpu_allocator 1%nat
               kFloat (Some ChannelsLast) [] = (Ok t2, w2))
    by (eexists; eexists; vm_compute; reflexivity).
  destruct E1 as (t1 & w1 & E1). destruct E2 as (t2 & w2 & E2).
  exists t1, w1, t2, w2. split; [exact E1|]. split; [exact E2|].
  split.
  - exact (proj1 (proj1 (proj2 (@format_does_not_affect_storage cpu_host
                                  [1; 3; 2; 2] host_cpu_allocator 1%nat kFloat
                                  None (Some ChannelsLast) []))
                    t1 w1 t2 w2 E1 E2)).
  - vm_compute in E1, E2. injection E1 as <- _. injection E2 as <- _.
    simpl. discriminate.
Defined.

(** ** Edge cases of the byte size *)

(** X6.  A shape with a dimension 0 holds no element: the tensor a call of
    [empty_generic] returns for it sits on a storage of 0 bytes, whatever the
    element type and the other dimensions, and the allocator was asked for 0
    bytes. *)
Theorem zero_dimension_allocates_nothing `{Externals} size a k T mf w t w' :
  In 0 size ->
  empty_generic size a k T mf w = (Ok t, w') ->
  size_bytes (storage t) = 0 /\
  allocate a w 0 = Some (data_ptr (storage t)) /\
  In (EvAllocate a 0 (data_ptr (storage t))) w' /\
  sizes t = size.
Proof.
  intros Hz E.
  destruct (empty_generic_Ok_full _ _ _ _ _ _ _ _ E)
    as (n & p & sd & _ & Hm & Hal & -> & _ & ->).
  apply multiply_integers_Ok in Hm.
  rewrite (product_with_zero _ Hz) in Hm. subst n.
  assert (Hnb : nbytes_of 0 T = 0) by reflexivity.
  rewrite Hnb in *. simpl.
  repeat match goal with |- _ /\ _ => split end; auto.
  rewrite !in_app_iff. right; right. simpl. auto.
Qed.

Lemma zero_dimension_allocates_nothing_witness :
  exists t w',
    @empty_generic cpu_host [5; 0; 7] host_cpu_allocator 1%nat kDouble None []
    = (Ok t, w') /\
    size_bytes (storage t) = 0.
Proof.
  destruct (@empty_generic_returns cpu_host [5; 0; 7] host_cpu_allocator 1%nat
              kDouble None [] 0 0%nat eq_refl eq_refl eq_refl
              ltac:(discriminate))
    as (t & w' & E & _).
  exists t, w'. split; [exact E|].
  refine (proj1 (@zero_dimension_allocates_nothing cpu_host [5; 0; 7] _ _ _ _
                   _ t w' _ E)).
  simpl. tauto.
Defined.

(** X7.  Below 2^64 the byte size is exact.  When the element count times the
    width is below 2^64, the allocator is asked for exactly that many bytes
    and the storage of the tensor returned records exactly that many; this
    includes the sizes from 2^63 on, where the [int64_t] variable of line 32
    is negative and the conversion to [size_t] restores the value. *)
Theorem byte_size_exact_below_2_64 `{Externals} size a k T mf w t w' :
  empty_generic size a k T mf w = (Ok t, w') ->
  0 <= exact_nbytes size T < 2 ^ 64 ->
  size_bytes (storage t) = exact_nbytes size T /\
  allocate a w (exact_nbytes size T) = Some (data_ptr (storage t)) /\
  In (EvAllocate a (exact_nbytes size T) (data_ptr (storage t))) w'.
Proof.
  intros E Hr.
  destruct (empty_generic_Ok_full _ _ _ _ _ _ _ _ E)
    as (n & p & sd & _ & Hm & Hal & -> & _ & ->).
  apply multiply_integers_Ok in Hm. subst n.
  assert (Hnb : nbytes_of (product size) T = exact_nbytes size T).
  { rewrite nbytes_of_spec. unfold to_size_t, exact_nbytes in *.
    now apply Z.mod_small. }
  rewrite Hnb in *. simpl.
  repeat match goal with |- _ /\ _ => split end; auto.
  rewrite !in_app_iff. right; right. simpl. auto.
Qed.

Lemma byte_size_exact_below_2_64_witness :
  exists t w',
    @empty_generic cpu_host [2; 3; 4] host_cpu_allocator 1%nat kDouble None []
    = (Ok t, w') /\
    size_bytes (storage t) = 192.
Proof.
  assert (E : exists t w',
             @empty_generic cpu_host [2; 3; 4] host_cpu_allocator 1%nat
               kDouble None [] = (Ok t, w'))
    by (eexists; eexists; vm_compute; reflexivity).
  destruct E as (t & w' & E). exists t, w'. split; [exact E|].
  refine (proj1 (@byte_size_exact_below_2_64 cpu_host [2; 3; 4] _ _ _ _ _
                   t w' E _)).
  vm_compute. split; [discriminate | reflexivity].
Defined.

(** X8.  The 0-dimensional shape is not the default shape: a call of
    [empty_generic] with the empty shape asks the allocator for the width of
    one element, invokes [set_sizes_contiguous], and returns a tensor with no
    sizes whose storage holds that one element (a format other than
    Contiguous has to be served by the layout engine); without such a format
    it has no strides either. *)
Theorem scalar_shape_holds_one_element `{Externals} a k T mf w p :
  allocate a w (nbytes_of 1 T) = Some p ->
  (forall f, mf = Some f -> f <> Contiguous -> strides_for f [] <> None) ->
  exists t w',
    empty_generic [] a k T mf w = (Ok t, w') /\
    sizes t = [] /\
    size_bytes (storage t) = to_size_t (itemsize (scalarTypeToTypeMeta T)) /\
    data_ptr (storage t) = p /\
    count is_set_sizes w' = S (count is_set_sizes w) /\
    (mf = None \/ mf = Some Contiguous -> strides t = []).
Proof.
  intros Hal Hserved.
  destruct (empty_generic_returns [] a k T mf w 1 p eq_refl eq_refl Hal
              Hserved)
    as (t & w' & E & Hst).
  exists t, w'. split; [exact E|].
  destruct (empty_generic_Ok_full _ _ _ _ _ _ _ _ E)
    as (n & p' & sd & _ & Hm & Hal' & Ht & Hsd & Hw).
  injection Hm as <-. rewrite Hal in Hal'. injection Hal' as <-.
  subst t w'. simpl.
  repeat match goal with |- _ /\ _ => split end; auto.
  - rewrite nbytes_of_spec. f_equal. lia.
  - destruct (restride_request mf); unfold count; simpl; reflexivity.
  - intros [-> | ->]; exact Hsd.
Qed.

Lemma scalar_shape_holds_one_element_witness :
  exists t w',
    @empty_generic cpu_host [] host_cpu_allocator 1%nat kDouble None []
    = (Ok t, w') /\
    sizes t = [] /\ size_bytes (storage t) = 8.
Proof.
  destruct (@scalar_shape_holds_one_element cpu_host host_cpu_allocator 1%nat
              kDouble None [] 0%nat eq_refl ltac:(discriminate))
    as (t & w' & E & Hs & Hb & _).
  exists t, w'. auto.
Defined.

(** ** The entry points for the CPU *)

(** X9.  [empty_cpu] never substitutes one allocator for the other: the
    tensor it returns carries the CPU dispatch key, and its storage names the
    CPU allocator for an unpinned request and the pinned-memory allocator of
    the hooks for a pinned one.  An unpinned request never fails for want of
    an allocator. *)
Theorem empty_cpu_allocator_choice `{Externals} size T pin mf w :
  (forall t w',
      empty_cpu size T pin mf w = (Ok t, w') ->
      key_set t = DispatchKey_CPU /\
      (pin = false -> allocator (storage t) = GetCPUAllocator) /\
      (pin = true ->
       pinned_memory_allocator = Some (allocator (storage t)))) /\
  (forall e w',
      pin = false ->
      empty_cpu size T pin mf w = (Err e, w') ->
      e <> UnsupportedPolicyError).
Proof.
  split.
  - intros t w' E.
    destruct (empty_cpu_Ok _ _ _ _ _ _ _ E) as (a & Hres & Eg).
    destruct (empty_generic_Ok_full _ _ _ _ _ _ _ _ Eg)
      as (n & p & sd & _ & _ & _ & -> & _).
    simpl. split; [reflexivity|].
    unfold GetCPUAllocatorMaybePinned, getPinnedMemoryAllocator in Hres.
    split; intros ->.
    + injection Hres as <-. reflexivity.
    + destruct pinned_memory_allocator as [pa|]; [|discriminate].
      injection Hres as <-. reflexivity.
  - intros e w' -> E. unfold empty_cpu, bind in E. simpl in E.
    intros ->.
    destruct (empty_generic_Err _ _ _ _ _ _ _ _ E ltac:(discriminate))
      as [_ [(x & _ & Hc) | [(_ & _ & Hc) | (n & _ & _ & _ & Hc)]]];
      discriminate.
Qed.

Lemma empty_cpu_allocator_choice_witness :
  exists t w',
    @empty_cpu cuda_host [5] kDouble true None [] = (Ok t, w') /\
    @pinned_memory_allocator cuda_host = Some (allocator (storage t)).
Proof.
  assert (E : exists t w',
             @empty_cpu cuda_host [5] kDouble true None [] = (Ok t, w'))
    by (eexists; eexists; vm_compute; reflexivity).
  destruct E as (t & w' & E). exists t, w'. split; [exact E|].
  exact (proj2 (proj2 (proj1 (@empty_cpu_allocator_choice cuda_host [5]
                                kDouble true None []) t w' E)) eq_refl).
Defined.

(** X10.  Options that leave the dtype, the layout and the device unset never
    trip the debug-only assertions: in a debug build as in a release build,
    the TensorOptions overload is then the resolved-value overload at the
    default dtype, with the pin-memory flag defaulting to unpinned and the
    memory format passed through. *)
Theorem empty_cpu_unset_options `{Externals} size pin mf w :
  empty_cpu_options size (mkTensorOptions None None None pin mf) w
  = empty_cpu size get_default_dtype_as_scalartype
      (pinned_memory_or_default pin) mf w /\
  empty_cpu_options size (mkTensorOptions None None None None None) w
  = empty_generic size GetCPUAllocator DispatchKey_CPU
      get_default_dtype_as_scalartype None w.
Proof.
  unfold empty_cpu_options, empty_cpu_optional, bind,
    TORCH_INTERNAL_ASSERT_DEBUG_ONLY.
  simpl. destruct NDEBUG; split; reflexivity.
Qed.

(** X11.  The dtype of the options reaches the tensor: when the TypeMeta of
    the options converts to a scalar type and that scalar type converts back
    to it, a call of the TensorOptions overload that returns gives a tensor of
    that very TypeMeta, with the shape asked for, the CPU dispatch key and a
    storage of the element count times the width of that TypeMeta, wrapped to
    64 bits. *)
Theorem options_dtype_reaches_tensor `{Externals} size options tm s w t w' :
  dtype_opt options = Some tm ->
  typeMetaToScalarType tm = Some s ->
  scalarTypeToTypeMeta s = tm ->
  empty_cpu_options size options w = (Ok t, w') ->
  dtype t = tm /\
  sizes t = size /\
  key_set t = DispatchKey_CPU /\
  size_bytes (storage t) = to_size_t (product size * itemsize tm).
Proof.
  intros Hd Hconv Hback E.
  unfold empty_cpu_options, bind, optTypeMetaToScalarType in E.
  rewrite Hd, Hconv in E. simpl in E.
  assert (Ec : exists pin,
             empty_cpu size s pin (memory_format_opt options) w = (Ok t, w')).
  { unfold empty_cpu_optional, bind, TORCH_INTERNAL_ASSERT_DEBUG_ONLY in E.
    exists (pinned_memory_or_default (pinned_memory_opt options)).
    destruct NDEBUG; simpl in E; [exact E|].
    destruct (DeviceType_is_CPU _); simpl in E; [|discriminate].
    destruct (Layout_is_Strided _); simpl in E; [exact E | discriminate]. }
  destruct Ec as (pin & Ec).
  destruct (empty_cpu_Ok _ _ _ _ _ _ _ Ec) as (a & _ & Eg).
  destruct (empty_generic_Ok_full _ _ _ _ _ _ _ _ Eg)
    as (n & p & sd & _ & Hm & _ & -> & _).
  apply multiply_integers_Ok in Hm. subst n.
  simpl. rewrite nbytes_of_spec, Hback. auto.
Qed.

Lemma options_dtype_reaches_tensor_witness :
  exists t w',
    @empty_cpu_options cpu_host [2; 3]
      (mkTensorOptions (Some kDouble) None None None None) []
    = (Ok t, w') /\
    dtype t = kDouble /\ size_bytes (storage t) = 48.
Proof.
  assert (E : exists t w',
             @empty_cpu_options cpu_host [2; 3]
               (mkTensorOptions (Some kDouble) None None None None) []
             = (Ok t, w'))
    by (eexists; eexists; vm_compute; reflexivity).
  destruct E as (t & w' & E). exists t, w'. split; [exact E|].
  destruct (@options_dtype_reaches_tensor cpu_host [2; 3]
              (mkTensorOptions (Some kDouble) None None None None)
              kDouble kDouble [] t w' eq_refl eq_refl eq_refl E)
    as (Hd & _ & _ & Hb).
  split; [exact Hd | exact Hb].
Defined.

(** X12.  With the debug-only assertions compiled out, the optional-fields
    overload does not look at the layout and the device it is given: any two
    calls that agree on the other arguments are equal, and a call that returns
    gives a tensor with the CPU dispatch key even for a device that is not a
    CPU device. *)
Theorem release_build_ignores_device_and_layout `{Externals} :
  NDEBUG = true ->
  forall size d pin mf w,
    (forall l l' dev dev',
        empty_cpu_optional size d l dev pin mf w
        = empty_cpu_optional size d l' dev' pin mf w) /\
    (forall l dev t w',
        empty_cpu_optional size d l dev pin mf w = (Ok t, w') ->
        key_set t = DispatchKey_CPU).
Proof.
  intros Hrel size d pin mf w.
  assert (R : forall l dev,
             empty_cpu_optional size d l dev pin mf w
             = empty_cpu size (dtype_or_default d)
                 (pinned_memory_or_default pin) mf w).
  { intros l dev.
    unfold empty_cpu_optional, bind, TORCH_INTERNAL_ASSERT_DEBUG_ONLY.
    rewrite Hrel. reflexivity. }
  split.
  - intros l l' dev dev'. now rewrite !R.
  - intros l dev t w' E. rewrite R in E.
    destruct (empty_cpu_Ok _ _ _ _ _ _ _ E) as (a & _ & Eg).
    destruct (empty_generic_Ok_full _ _ _ _ _ _ _ _ Eg)
      as (n & p & sd & _ & _ & _ & -> & _).
    reflexivity.
Qed.

Lemma release_build_ignores_device_and_layout_witness :
  @empty_cpu_optional cpu_host [4] (Some kFloat) (Some Sparse)
    (Some (mkDevice DeviceType_CUDA 1)) None None []
  = @empty_cpu_optional cpu_host [4] (Some kFloat) None None None None [].
Proof.
  apply (proj1 (@release_build_ignores_device_and_layout cpu_host eq_refl
                  [4] (Some kFloat) None None [])).
Defined.
